(** * Firestore/core/src/util/firebase_platform_logging_noop.h

    A shallow embedding of the no-op platform logging class of the
    Firestore client and of the factory declared next to it.

    - [std::string] is [string]; the literal of zero characters that the
      string accessors return is [EmptyString].
    - A member function is a state transformer on the object it is called
      on ([Method]); its body [return e;] is [Return e].
    - The interface the class overrides is a type class, the class itself an
      instance of it.
    - Objects created by the factory live in a [Memory], a finite map from
      addresses to objects. *)

From stdpp Require Import base strings list gmap.

(** ** Member functions *)

(** A member function called on an object of class [T] with a result in [A]:
    it receives the object and gives back its result and the object as the
    call leaves it. *)
Definition Method (T A : Type) : Type := T → A * T.

(** The statement [return a;] as a whole body: nothing is read from or
    written to the object. *)
Definition Return {T A : Type} (a : A) : Method T A := λ this, (a, this).

(** What a call returns, and the object after the call. *)
Definition result {T A : Type} (call : A * T) : A := call.1.
Definition after {T A : Type} (call : A * T) : T := call.2.

(** ** The interface *)

(** Modelled from the spec: the abstract class [FirebasePlatformLogging] of
    firebase_platform_logging.h, which the source includes and derives from
    but which is not among the source files.  The five [override]s of the
    source fix the names and the result types of its virtual functions; the
    spec lists the same five operations as the capability interface. *)
Class FirebasePlatformLogging (T : Type) : Type := {
  IsLoggingAvailable : Method T bool;
  GetUserAgent : Method T string;
  GetHeartbeat : Method T string;
  IsGmpAppIdAvailable : Method T bool;
  GetGmpAppId : Method T string
}.

(** ** The no-op class *)

(** [class FirebasePlatformLoggingNoOp] declares no data member: an object
    carries nothing, and the record has no field. *)
Record FirebasePlatformLoggingNoOp : Set := NoOp {}.

(** The five overriding member functions, each of them a single [return]. *)
#[export] Instance FirebasePlatformLoggingNoOp_overrides :
  FirebasePlatformLogging FirebasePlatformLoggingNoOp := {|
  IsLoggingAvailable := Return false;
  GetUserAgent := Return EmptyString;
  GetHeartbeat := Return EmptyString;
  IsGmpAppIdAvailable := Return false;
  GetGmpAppId := Return EmptyString
|}.

(** ** Sequences of calls *)

(** The five accessors, as the names a caller can pick from. *)
Inductive Accessor : Set :=
  | CallIsLoggingAvailable
  | CallGetUserAgent
  | CallGetHeartbeat
  | CallIsGmpAppIdAvailable
  | CallGetGmpAppId.

#[export] Instance Accessor_eq_dec : EqDecision Accessor.
Proof. solve_decision. Defined.

(** What an accessor hands back: a [bool] or a [std::string]. *)
Inductive Value : Set :=
  | VBool (b : bool)
  | VString (s : string).

Section Calls.
Context {T : Type} `{!FirebasePlatformLogging T}.

(** One virtual call [x.a()]. *)
Definition call (a : Accessor) : Method T Value := λ x,
  match a with
  | CallIsLoggingAvailable => let (b, x') := IsLoggingAvailable x in (VBool b, x')
  | CallGetUserAgent => let (s, x') := GetUserAgent x in (VString s, x')
  | CallGetHeartbeat => let (s, x') := GetHeartbeat x in (VString s, x')
  | CallIsGmpAppIdAvailable => let (b, x') := IsGmpAppIdAvailable x in (VBool b, x')
  | CallGetGmpAppId => let (s, x') := GetGmpAppId x in (VString s, x')
  end.

(** The calls of [calls] made one after the other on the same object, each
    on the object as the previous one left it.  The result is the log of
    the calls, each with what it returned, and the object at the end. *)
Fixpoint run (calls : list Accessor) : Method T (list (Accessor * Value)) := λ x,
  match calls with
  | [] => ([], x)
  | a :: rest =>
      let (v, x') := call a x in
      let (log, x'') := run rest x' in
      ((a, v) :: log, x'')
  end.
End Calls.

(** ** Memory and the factory *)

(** The free store: the objects alive, each at its address, and the number
    of objects the platform has room for. *)
Record Memory : Type := {
  objects : gmap positive FirebasePlatformLoggingNoOp;
  capacity : nat
}.

(** [std::unique_ptr<FirebasePlatformLoggingNoOp>]: null, or the one owner
    of the object at an address. *)
Inductive unique_ptr : Set :=
  | nullptr
  | owner (address : positive).

(** How a call that allocates ends: it returns a value and leaves a memory,
    or it is abandoned by [std::bad_alloc]. *)
Inductive Outcome (A : Type) : Type :=
  | Returned (a : A) (m : Memory)
  | bad_alloc.
Arguments Returned {A} a m.
Arguments bad_alloc {A}.

(** Modelled from the spec: the body of [CreateNoOpFirebasePlatformLogging],
    of which the source has the declaration only.  The spec: it "allocates
    and returns a new instance; the caller receives exclusive ownership",
    and running out of memory is its only failure.  The new object is the
    one the implicit default constructor builds, [NoOp]; it is placed at an
    address no live object has. *)
Definition CreateNoOpFirebasePlatformLogging (m : Memory) : Outcome unique_ptr :=
  if decide (size (objects m) < capacity m) then
    let address := fresh (dom (objects m)) in
    Returned (owner address)
      {| objects := <[address := NoOp]> (objects m); capacity := capacity m |}
  else bad_alloc.

(** * Properties *)

(** ** One call *)

(** The class has a single object value: with no data member there is
    nothing in which two objects, or one object at two moments, can differ. *)
Lemma NoOp_single_state (x y : FirebasePlatformLoggingNoOp) : x = y.
Proof. by destruct x, y. Qed.

(** Each of the five bodies gives the object back as it received it. *)
Lemma accessors_keep_object (x : FirebasePlatformLoggingNoOp) :
  after (IsLoggingAvailable x) = x ∧ after (GetUserAgent x) = x ∧
  after (GetHeartbeat x) = x ∧ after (IsGmpAppIdAvailable x) = x ∧
  after (GetGmpAppId x) = x.
Proof. repeat split. Qed.

Lemma call_keeps_object (a : Accessor) (x : FirebasePlatformLoggingNoOp) :
  after (call a x) = x.
Proof.
  pose proof (accessors_keep_object x) as (H1 & H2 & H3 & H4 & H5).
  destruct a; simpl.
  - by destruct (IsLoggingAvailable x).
  - by destruct (GetUserAgent x).
  - by destruct (GetHeartbeat x).
  - by destruct (IsGmpAppIdAvailable x).
  - by destruct (GetGmpAppId x).
Qed.

(** What a call returns is settled by the accessor called alone. *)
Lemma call_result_fixed (a : Accessor) (x y : FirebasePlatformLoggingNoOp) :
  result (call a x) = result (call a y).
Proof. by destruct a. Qed.

(** ** Sequences of calls *)

Lemma run_cons (a : Accessor) (rest : list Accessor) (x : FirebasePlatformLoggingNoOp) :
  run (a :: rest) x =
    ((a, result (call a x)) :: result (run rest (after (call a x))),
     after (run rest (after (call a x)))).
Proof.
  simpl. destruct (call a x) as [v x']. simpl.
  by destruct (run rest x') as [log x''].
Qed.

Lemma run_keeps_object (calls : list Accessor) (x : FirebasePlatformLoggingNoOp) :
  after (run calls x) = x.
Proof.
  revert x. induction calls as [|a rest IH]; intros x; [done|].
  rewrite run_cons. unfold after at 1. simpl.
  by rewrite IH, call_keeps_object.
Qed.

(** The log has one entry per call, in the order of the calls. *)
Lemma run_log_calls (calls : list Accessor) (x : FirebasePlatformLoggingNoOp) :
  (result (run calls x)).*1 = calls.
Proof.
  revert x. induction calls as [|a rest IH]; intros x; [done|].
  rewrite run_cons. unfold result at 1. simpl. by rewrite IH.
Qed.

(** The entry of the [i]-th call holds what that accessor returns on the
    object the sequence started from. *)
Lemma run_log_lookup (calls : list Accessor) (x : FirebasePlatformLoggingNoOp)
    (i : nat) (a : Accessor) :
  calls !! i = Some a →
  result (run calls x) !! i = Some (a, result (call a x)).
Proof.
  revert x i. induction calls as [|b rest IH]; intros x i Hi; [done|].
  rewrite run_cons. unfold result at 1. simpl.
  destruct i as [|i]; simpl in *.
  - by simplify_eq.
  - rewrite (IH _ _ Hi). do 2 f_equal. apply call_result_fixed.
Qed.

(** ** The fixed answers *)

(** C1: on every object [x] of the class, and whatever accessors were called
    on it [earlier], [x.IsLoggingAvailable()] returns [false]. *)
Theorem IsLoggingAvailable_false
    (x : FirebasePlatformLoggingNoOp) (earlier : list Accessor) :
  result (IsLoggingAvailable (after (run earlier x))) = false.
Proof. reflexivity. Qed.

(** C2: on every object [x] of the class, and whatever accessors were called
    on it [earlier], [x.GetUserAgent()] returns the string of no character. *)
Theorem GetUserAgent_empty
    (x : FirebasePlatformLoggingNoOp) (earlier : list Accessor) :
  result (GetUserAgent (after (run earlier x))) = EmptyString.
Proof. reflexivity. Qed.

(** C3: on every object [x] of the class, and whatever accessors were called
    on it [earlier], [x.GetHeartbeat()] returns the string of no character. *)
Theorem GetHeartbeat_empty
    (x : FirebasePlatformLoggingNoOp) (earlier : list Accessor) :
  result (GetHeartbeat (after (run earlier x))) = EmptyString.
Proof. reflexivity. Qed.

(** C4: on every object [x] of the class, and whatever accessors were called
    on it [earlier], [x.IsGmpAppIdAvailable()] returns [false]. *)
Theorem IsGmpAppIdAvailable_false
    (x : FirebasePlatformLoggingNoOp) (earlier : list Accessor) :
  result (IsGmpAppIdAvailable (after (run earlier x))) = false.
Proof. reflexivity. Qed.

(** C5: on every object [x] of the class, and whatever accessors were called
    on it [earlier], [x.GetGmpAppId()] returns the string of no character. *)
Theorem GetGmpAppId_empty
    (x : FirebasePlatformLoggingNoOp) (earlier : list Accessor) :
  result (GetGmpAppId (after (run earlier x))) = EmptyString.
Proof. reflexivity. Qed.

(** C10: on every object the flags agree with the strings they announce:
    [IsLoggingAvailable()] is [false] exactly when [GetUserAgent()] and
    [GetHeartbeat()] are both the string of no character, and
    [IsGmpAppIdAvailable()] is [false] exactly when [GetGmpAppId()] is. *)
Theorem flags_agree_with_strings (x : FirebasePlatformLoggingNoOp) :
  (result (IsLoggingAvailable x) = false ↔
     result (GetUserAgent x) = EmptyString ∧
     result (GetHeartbeat x) = EmptyString) ∧
  (result (IsGmpAppIdAvailable x) = false ↔
     result (GetGmpAppId x) = EmptyString).
Proof.
  split; split; intros _.
  - split; reflexivity.
  - reflexivity.
  - reflexivity.
  - reflexivity.
Qed.

(** ** No drift, no mutation *)

(** C6: in any finite sequence of calls to the five accessors on one object,
    in any order and with any repetitions, two calls of the same accessor
    are both answered, and with the same value. *)
Theorem run_same_accessor_same_result
    (x : FirebasePlatformLoggingNoOp) (calls : list Accessor)
    (i j : nat) (a : Accessor) :
  calls !! i = Some a →
  calls !! j = Some a →
  ∃ v : Value,
    result (run calls x) !! i = Some (a, v) ∧
    result (run calls x) !! j = Some (a, v).
Proof.
  intros Hi Hj. exists (result (call a x)).
  split; by apply run_log_lookup.
Qed.

Lemma run_same_accessor_same_result_witness :
  ∃ v : Value,
    result (run [CallGetUserAgent; CallIsLoggingAvailable; CallGetUserAgent] NoOp)
      !! 0 = Some (CallGetUserAgent, v) ∧
    result (run [CallGetUserAgent; CallIsLoggingAvailable; CallGetUserAgent] NoOp)
      !! 2 = Some (CallGetUserAgent, v).
Proof.
  apply (run_same_accessor_same_result NoOp
           [CallGetUserAgent; CallIsLoggingAvailable; CallGetUserAgent]
           0 2 CallGetUserAgent); reflexivity.
Defined.

(** C7: a call to any of the five accessors leaves the object exactly as it
    found it; and the object has no state that could change, any two values
    of the class being equal. *)
Theorem call_leaves_object_unchanged :
  (∀ (a : Accessor) (x : FirebasePlatformLoggingNoOp), after (call a x) = x) ∧
  (∀ x y : FirebasePlatformLoggingNoOp, x = y).
Proof. split; [apply call_keeps_object | apply NoOp_single_state]. Qed.

(** ** The factory *)

(** The factory has two ways to end, and a null handle is neither. *)
Lemma CreateNoOpFirebasePlatformLogging_not_null (m m' : Memory) :
  CreateNoOpFirebasePlatformLogging m ≠ Returned nullptr m'.
Proof. unfold CreateNoOpFirebasePlatformLogging. by case_decide. Qed.

(** C8: when memory is not exhausted the factory returns, and what it
    returns is not null: it is the owner of an address at which no object
    was alive before the call and at which a newly constructed no-op object
    is alive after it, every other address being as it was. *)
Theorem CreateNoOpFirebasePlatformLogging_owns_new_object (m : Memory) :
  size (objects m) < capacity m →
  ∃ (address : positive) (m' : Memory),
    CreateNoOpFirebasePlatformLogging m = Returned (owner address) m' ∧
    owner address ≠ nullptr ∧
    objects m !! address = None ∧
    objects m' !! address = Some NoOp ∧
    ∀ other : positive, other ≠ address → objects m' !! other = objects m !! other.
Proof.
  intros Hroom. unfold CreateNoOpFirebasePlatformLogging.
  rewrite decide_True by done.
  eexists _, _. split; [reflexivity|]. simpl.
  split; [done|]. split; [|split].
  - apply not_elem_of_dom, is_fresh.
  - apply lookup_insert_eq.
  - intros other Hother. by apply lookup_insert_ne.
Qed.

Lemma CreateNoOpFirebasePlatformLogging_owns_new_object_witness :
  size (objects {| objects := {[1%positive := NoOp]}; capacity := 2 |}) <
    capacity {| objects := {[1%positive := NoOp]}; capacity := 2 |} ∧
  ∃ (address : positive) (m' : Memory),
    CreateNoOpFirebasePlatformLogging
      {| objects := {[1%positive := NoOp]}; capacity := 2 |}
      = Returned (owner address) m' ∧
    owner address ≠ nullptr ∧
    objects {| objects := {[1%positive := NoOp]}; capacity := 2 |} !! address = None ∧
    objects m' !! address = Some NoOp ∧
    ∀ other : positive, other ≠ address →
      objects m' !! other =
      objects {| objects := {[1%positive := NoOp]}; capacity := 2 |} !! other.
Proof.
  split.
  - vm_compute. lia.
  - apply (CreateNoOpFirebasePlatformLogging_owns_new_object
             {| objects := {[1%positive := NoOp]}; capacity := 2 |}).
    vm_compute. lia.
Defined.

(** ** How calls compose *)

(** Every entry of a log is the answer its accessor gives when called on
    its own: nothing of what was called before shows in it. *)
Lemma run_log_map (calls : list Accessor) (x : FirebasePlatformLoggingNoOp) :
  result (run calls x) = (λ a, (a, result (call a x))) <$> calls.
Proof.
  revert x. induction calls as [|a rest IH]; intros x; [done|].
  rewrite run_cons. unfold result at 1. simpl.
  rewrite IH. f_equal.
  apply list_fmap_ext. intros _ b _. f_equal. apply call_result_fixed.
Qed.

(** X1: a sequence of calls on one object, of any length and in any order,
    is answered call by call as if each call were the only one ever made,
    and the object at the end is the object at the start. *)
Theorem run_history_independent
    (calls : list Accessor) (x : FirebasePlatformLoggingNoOp) :
  run calls x = ((λ a, (a, result (call a x))) <$> calls, x).
Proof.
  pose proof (run_log_map calls x) as Hlog.
  pose proof (run_keeps_object calls x) as Hobj.
  destruct (run calls x) as [log x']. simpl in Hlog, Hobj.
  by rewrite Hlog, Hobj.
Qed.

(** X2: making the calls of [first] and then those of [second] on an object
    gives the log of [first] followed by the log of [second], each as it is
    when that part is run alone on the object. *)
Theorem run_app
    (first second : list Accessor) (x : FirebasePlatformLoggingNoOp) :
  result (run (first ++ second) x) =
    result (run first x) ++ result (run second x).
Proof. rewrite !run_log_map. apply fmap_app. Qed.


